(** * The EnvCLI external-plugin protocol, as implemented by
      [examples/plugin/example_plugin.py].

    The plugin is a one-shot process: it decodes one JSON document from its
    standard input, dispatches on the [action] field, writes one JSON
    document to its standard output and exits.  The development below embeds
    the Python source function by function and then proves the protocol
    properties of the specification about that embedding. *)

From Stdlib Require Import String Ascii List ZArith Bool Lia DecimalString.
From Stdlib Require Import Floats.SpecFloat.
Import ListNotations.
Open Scope string_scope.

(* ===================================================================== *)
(** ** Python values produced by [json.load] *)
(* ===================================================================== *)

(** [json.load] yields [None], [bool], [int], [float], [str], [list] and
    [dict] objects.  A [dict] is kept as an association list in insertion
    order (the order [json.dump] writes it in); keys are always strings.
    Floats are IEEE binary64 values in the standard library's specification
    format. *)
#[local] Unset Elimination Schemes.
Inductive value : Type :=
| PyNone
| PyBool (b : bool)
| PyInt (n : Z)
| PyFloat (f : spec_float)
| PyStr (s : string)
| PyList (items : list value)
| PyDict (entries : list (string * value)).
#[local] Set Elimination Schemes.

Module Dict.

Definition t := list (string * value).

(** [d.get(k)] on the entries of a dict: the value stored under [k]. *)
Fixpoint lookup (k : string) (d : t) : option value :=
  match d with
  | [] => None
  | (k', v) :: rest => if String.eqb k' k then Some v else lookup k rest
  end.

(** [d[k] = v]: overwrite in place when [k] is bound, append otherwise. *)
Fixpoint set (k : string) (v : value) (d : t) : t :=
  match d with
  | [] => [(k, v)]
  | (k', v') :: rest =>
      if String.eqb k' k then (k', v) :: rest else (k', v') :: set k v rest
  end.

Definition keys (d : t) : list string := map fst d.

End Dict.

(** Lookup in a table keyed by strings: the first entry under [k]. *)
Fixpoint assoc {A} (k : string) (l : list (string * A)) : option A :=
  match l with
  | [] => None
  | (k', a) :: rest => if String.eqb k' k then Some a else assoc k rest
  end.

(* ===================================================================== *)
(** ** Exceptions, outcomes and the process state *)
(* ===================================================================== *)

(** An exception object of a class derived from [Exception]; [str(e)] is
    [exn_message]. *)
Record exn : Type := { exn_class : string; exn_message : string }.

Inductive outcome (A : Type) : Type :=
| Ok (a : A)
| Raise (e : exn).
Arguments Ok {A} a.
Arguments Raise {A} e.

(** What the process has emitted so far: the JSON documents handed to
    [json.dump(_, sys.stdout)], and the lines printed on [sys.stderr]. *)
Record world : Type := { stdout : list value; stderr : list string }.

Definition initial_world : world := {| stdout := []; stderr := [] |}.

(** Computations that may print and may raise.  The world survives a raise:
    what was printed before the exception stays printed. *)
Definition M (A : Type) : Type := world -> outcome A * world.

Definition ret {A} (a : A) : M A := fun w => (Ok a, w).

Definition bind {A B} (m : M A) (k : A -> M B) : M B :=
  fun w => match m w with
           | (Ok a, w') => k a w'
           | (Raise e, w') => (Raise e, w')
           end.

Definition lift {A} (o : outcome A) : M A := fun w => (o, w).

Notation "x <- m ;; k" := (bind m (fun x => k))
  (at level 61, m at next level, right associativity).
Notation "m ;;; k" := (bind m (fun _ => k))
  (at level 61, right associativity).

(** [print(line, file=sys.stderr)] *)
Definition print_stderr (line : string) : M unit :=
  fun w => (Ok tt, {| stdout := stdout w; stderr := stderr w ++ [line] |}).

(** [json.dump(doc, sys.stdout); sys.stdout.flush()] *)
Definition json_dump (doc : value) : M unit :=
  fun w => (Ok tt, {| stdout := stdout w ++ [doc]; stderr := stderr w |}).

(* ===================================================================== *)
(** ** The Python runtime the plugin runs on *)
(* ===================================================================== *)

(** The interpreter services the script calls but does not define. *)
Record runtime : Type := {
  (** [json.load] applied to the text of [sys.stdin]: the decoded object,
      or the exception raised while reading or decoding. *)
  json_load : string -> outcome value;
  (** [float.__repr__] *)
  float_repr : spec_float -> string;
  (** [str.__repr__] *)
  str_repr : string -> string;
  (** the reading of [time.time()] *)
  time_time : spec_float;
  (** [sys.version.split()[0]], the interpreter's version number *)
  version_number : string
}.

Definition type_name (v : value) : string :=
  match v with
  | PyNone => "NoneType"
  | PyBool _ => "bool"
  | PyInt _ => "int"
  | PyFloat _ => "float"
  | PyStr _ => "str"
  | PyList _ => "list"
  | PyDict _ => "dict"
  end.

Definition attribute_error (v : value) (attr : string) : exn :=
  {| exn_class := "AttributeError";
     exn_message := "'" ++ type_name v ++ "' object has no attribute '" ++ attr ++ "'" |}.

Definition unhashable (v : value) : exn :=
  {| exn_class := "TypeError";
     exn_message := "unhashable type: '" ++ type_name v ++ "'" |}.

(** [obj.get(key, default)]: only a dict has the method. *)
Definition get (obj : value) (key : string) (default : value) : outcome value :=
  match obj with
  | PyDict d =>
      Ok (match Dict.lookup key d with Some v => v | None => default end)
  | _ => Raise (attribute_error obj "get")
  end.

(** Truth value of an object, as tested by [not x] and [if x]. *)
Definition truthy (v : value) : bool :=
  match v with
  | PyNone => false
  | PyBool b => b
  | PyInt n => negb (Z.eqb n 0)
  | PyFloat (S754_zero _) => false
  | PyFloat _ => true
  | PyStr s => negb (String.eqb s "")
  | PyList l => match l with [] => false | _ => true end
  | PyDict d => match d with [] => false | _ => true end
  end.

(** [v == s] for a string literal [s]. *)
Definition eq_str (v : value) (s : string) : bool :=
  match v with
  | PyStr s' => String.eqb s' s
  | _ => false
  end.

Definition join (sep : string) (l : list string) : string := String.concat sep l.

Section Formatting.

Variable rt : runtime.

(** [repr(v)] *)
Fixpoint py_repr (v : value) : string :=
  match v with
  | PyNone => "None"
  | PyBool true => "True"
  | PyBool false => "False"
  | PyInt n => NilZero.string_of_int (Z.to_int n)
  | PyFloat f => float_repr rt f
  | PyStr s => str_repr rt s
  | PyList l => "[" ++ join ", " (map py_repr l) ++ "]"
  | PyDict d =>
      "{" ++ join ", "
               (map (fun kv => match kv with
                               | (k, x) => str_repr rt k ++ ": " ++ py_repr x
                               end) d) ++ "}"
  end.

(** [str(v)] and the [{v}] of an f-string. *)
Definition py_str (v : value) : string :=
  match v with
  | PyStr s => s
  | _ => py_repr v
  end.

End Formatting.

(* ===================================================================== *)
(** ** The plugin *)
(* ===================================================================== *)

Section Plugin.

Variable rt : runtime.

(** [get_metadata()]: the static descriptor of the plugin. *)
Definition get_metadata : value :=
  PyDict
    [ ("id", PyStr "python-example");
      ("name", PyStr "Python Example Plugin");
      ("version", PyStr "1.0.0");
      ("description", PyStr "Python 外部插件示例");
      ("author", PyStr "EnvCLI Team");
      ("plugin_type", PyStr "ExternalExecutable");
      ("hooks", PyList [PyStr "PreCommand"; PyStr "PostCommand";
                        PyStr "PreRun"; PyStr "PostRun"]);
      ("extensions", PyList []);
      ("config_schema", PyNone);
      ("enabled", PyBool true);
      ("dependencies", PyList []);
      ("platforms", PyList [PyStr "Windows"; PyStr "Linux"; PyStr "MacOS"]);
      ("envcli_version", PyNone) ].

(** [str(time.time())] *)
Definition str_time : string := py_str rt (PyFloat (time_time rt)).

(** [handle_pre_command(context)] *)
Definition handle_pre_command (context : value) : M value :=
  command <- lift (get context "command" (PyStr "unknown")) ;;
  args <- lift (get context "args" (PyList [])) ;;
  print_stderr ("[PythonPlugin] PreCommand: " ++ py_str rt command
                  ++ " " ++ py_str rt args) ;;;
  ret (PyDict
         [ ("modified_env",
             PyDict [ ("PYTHON_PLUGIN", PyStr "active");
                      ("LAST_COMMAND", command);
                      ("COMMAND_TIME", PyStr str_time) ]);
           ("plugin_data", PyDict []);
           ("continue_execution", PyBool true);
           ("message",
             PyStr ("Python plugin processed pre-command: "
                      ++ py_str rt command)) ]).

(** [handle_post_command(context)] *)
Definition handle_post_command (context : value) : M value :=
  command <- lift (get context "command" (PyStr "unknown")) ;;
  print_stderr ("[PythonPlugin] PostCommand: " ++ py_str rt command) ;;;
  ret (PyDict
         [ ("modified_env", PyDict []);
           ("plugin_data",
             PyDict [ ("python_executed", PyStr "true");
                      ("timestamp", PyStr str_time) ]);
           ("continue_execution", PyBool true);
           ("message",
             PyStr ("Python plugin processed post-command: "
                      ++ py_str rt command)) ]).

(** [handle_pre_run(context)] *)
Definition handle_pre_run (context : value) : M value :=
  command <- lift (get context "command" (PyStr "unknown")) ;;
  print_stderr ("[PythonPlugin] PreRun: " ++ py_str rt command) ;;;
  ret (PyDict
         [ ("modified_env",
             PyDict [ ("PYTHON_RUN_MODE", PyStr "example");
                      ("PYTHON_VERSION", PyStr (version_number rt)) ]);
           ("plugin_data", PyDict []);
           ("continue_execution", PyBool true);
           ("message", PyStr "Python plugin pre-run hook") ]).

(** [handle_post_run(context)] *)
Definition handle_post_run (context : value) : M value :=
  command <- lift (get context "command" (PyStr "unknown")) ;;
  print_stderr ("[PythonPlugin] PostRun: " ++ py_str rt command) ;;;
  ret (PyDict
         [ ("modified_env", PyDict []);
           ("plugin_data", PyDict []);
           ("continue_execution", PyBool true);
           ("message", PyStr "Python plugin post-run hook") ]).

(** The [handlers] dict built by [execute_hook]. *)
Definition handlers : list (string * (value -> M value)) :=
  [ ("PreCommand", handle_pre_command);
    ("PostCommand", handle_post_command);
    ("PreRun", handle_pre_run);
    ("PostRun", handle_post_run) ].

(** [handlers.get(hook_type)]: the key is hashed first, so a list or a
    dict raises; a key of another type than [str] equals no entry. *)
Definition handlers_get (hook_type : value)
  : outcome (option (value -> M value)) :=
  match hook_type with
  | PyStr s => Ok (assoc s handlers)
  | PyList _ | PyDict _ => Raise (unhashable hook_type)
  | _ => Ok None
  end.

(** The result of the [else] branch of [execute_hook]. *)
Definition default_result : value :=
  PyDict
    [ ("modified_env", PyDict []);
      ("plugin_data", PyDict []);
      ("continue_execution", PyBool true);
      ("message", PyNone) ].

(** [execute_hook(hook_type, context)] *)
Definition execute_hook (hook_type context : value) : M value :=
  handler <- lift (handlers_get hook_type) ;;
  match handler with
  | Some h => h context
  | None => ret default_result
  end.

(** The [if]/[elif] chain of [main]: from the decoded request to the
    value of [response] when it is dumped. *)
Definition dispatch (request : value) : M value :=
  action <- lift (get request "action" PyNone) ;;
  let response : Dict.t := [ ("success", PyBool false) ] in
  if eq_str action "metadata" then
    ret (PyDict [ ("success", PyBool true); ("metadata", get_metadata) ])
  else if eq_str action "execute_hook" then
    hook_type <- lift (get request "hook_type" PyNone) ;;
    context <- lift (get request "context" (PyDict [])) ;;
    if negb (truthy hook_type) then
      ret (PyDict (Dict.set "error" (PyStr "Missing hook_type") response))
    else
      result <- execute_hook hook_type context ;;
      ret (PyDict [ ("success", PyBool true); ("result", result) ])
  else if eq_str action "initialize" then
    config <- lift (get request "config" (PyDict [])) ;;
    print_stderr ("[PythonPlugin] Initialized with config: "
                    ++ py_str rt config) ;;;
    ret (PyDict [ ("success", PyBool true) ])
  else if eq_str action "shutdown" then
    print_stderr "[PythonPlugin] Shutdown" ;;;
    ret (PyDict [ ("success", PyBool true) ])
  else
    ret (PyDict (Dict.set "error"
                   (PyStr ("Unknown action: " ++ py_str rt action))
                   response)).

(** The body of the [try] block of [main]. *)
Definition main_try (stdin : string) : M unit :=
  request <- lift (json_load rt stdin) ;;
  response <- dispatch request ;;
  json_dump response.

(** The [except Exception as e] handler, up to [sys.exit(1)]. *)
Definition main_except (e : exn) : M unit :=
  let error_response :=
    PyDict [ ("success", PyBool false); ("error", PyStr (exn_message e)) ] in
  json_dump error_response.

(** [main()]: the exit status of the process and what it has emitted.
    Returning from [main] ends the process with status 0; [sys.exit(1)]
    ends it with status 1. *)
Definition main (stdin : string) (w : world) : Z * world :=
  match main_try stdin w with
  | (Ok _, w') => (0%Z, w')
  | (Raise e, w') =>
      match main_except e w' with
      | (_, w'') => (1%Z, w'')
      end
  end.

(** One run of the script on the text [stdin]. *)
Definition run (stdin : string) : Z * world := main stdin initial_world.

End Plugin.


(* ===================================================================== *)
(** ** Observations on a run and on a response *)
(* ===================================================================== *)

Definition exit_status (r : Z * world) : Z := fst r.

(** The documents a run has written to its output stream. *)
Definition output (r : Z * world) : list value := stdout (snd r).

(** The value [request.get("action")] reads from a request object. *)
Definition request_action (request : Dict.t) : value :=
  match Dict.lookup "action" request with
  | Some a => a
  | None => PyNone
  end.

(** The keys of a fully populated HookResult. *)
Definition hook_result_keys : list string :=
  [ "modified_env"; "plugin_data"; "continue_execution"; "message" ].

(** [doc[k]] when [doc] is a JSON object that has the key. *)
Definition field (k : string) (doc : value) : option value :=
  match doc with
  | PyDict d => Dict.lookup k d
  | _ => None
  end.

Definition has_field (k : string) (doc : value) : bool :=
  match field k doc with
  | Some _ => true
  | None => false
  end.

Definition success_is (b : bool) (doc : value) : bool :=
  match field "success" doc with
  | Some (PyBool b') => Bool.eqb b' b
  | _ => false
  end.

(** The invariant of the Response entity: [success] is a boolean, it is
    false exactly when [error] is present, and [metadata] and [result] are
    not both present. *)
Definition response_invariant (doc : value) : bool :=
  (success_is true doc || success_is false doc)
  && Bool.eqb (success_is false doc) (has_field "error" doc)
  && negb (has_field "metadata" doc && has_field "result" doc).

Definition success_response (payload : list (string * value)) : value :=
  PyDict (("success", PyBool true) :: payload).

Definition failure_response (message : string) : value :=
  PyDict [ ("success", PyBool false); ("error", PyStr message) ].

(** A HookResult as every branch of [execute_hook] builds it. *)
Inductive is_hook_result : value -> Prop :=
| HookResult (env data : Dict.t) (message : value) :
    (message = PyNone \/ exists s, message = PyStr s) ->
    is_hook_result
      (PyDict [ ("modified_env", PyDict env);
                ("plugin_data", PyDict data);
                ("continue_execution", PyBool true);
                ("message", message) ]).

(** The four shapes a response can take. *)
Inductive response_shape : value -> Prop :=
| ShapeMetadata :
    response_shape (success_response [ ("metadata", get_metadata) ])
| ShapeResult (result : value) :
    is_hook_result result ->
    response_shape (success_response [ ("result", result) ])
| ShapeAck :
    response_shape (success_response [])
| ShapeError (message : string) :
    response_shape (failure_response message).

(** [m] writes nothing on the output stream, and a value it returns
    satisfies [P]. *)
Definition quiet {A} (P : A -> Prop) (m : M A) : Prop :=
  forall w,
    match m w with
    | (Ok a, w') => stdout w' = stdout w /\ P a
    | (Raise _, w') => stdout w' = stdout w
    end.

(** The hook identifiers the descriptor advertises. *)
Definition advertised_hooks : list value :=
  match field "hooks" get_metadata with
  | Some (PyList l) => l
  | _ => []
  end.

(** The exception [json.load] raises when the text is not a JSON document. *)
Definition decode_error : exn :=
  {| exn_class := "JSONDecodeError";
     exn_message := "Expecting value: line 1 column 1 (char 0)" |}.

(** *** Sample documents and a runtime that decodes them *)

(** The double-quote character of JSON text. *)
Definition dq : string := String (Ascii.ascii_of_nat 34) EmptyString.

Definition quoted (s : string) : string := dq ++ s ++ dq.

(** The text [{k1: v1, k2: v2, ...}] of a JSON object whose member values
    are given as JSON text. *)
Definition object_text (members : list (string * string)) : string :=
  "{" ++ join ", " (map (fun m => quoted (fst m) ++ ": " ++ snd m) members) ++ "}".

Definition metadata_text : string :=
  object_text [ ("action", quoted "metadata"); ("hook_type", "7");
                ("context", "[]") ].
Definition metadata_request : Dict.t :=
  [ ("action", PyStr "metadata"); ("hook_type", PyInt 7);
    ("context", PyList []) ].

Definition no_hook_text : string :=
  object_text [ ("action", quoted "execute_hook") ].
Definition no_hook_request : Dict.t :=
  [ ("action", PyStr "execute_hook") ].

Definition empty_hook_text : string :=
  object_text [ ("action", quoted "execute_hook"); ("hook_type", quoted "") ].
Definition empty_hook_request : Dict.t :=
  [ ("action", PyStr "execute_hook"); ("hook_type", PyStr "") ].

Definition unknown_hook_text : string :=
  object_text [ ("action", quoted "execute_hook");
                ("hook_type", quoted "TotallyUnknownHook") ].
Definition unknown_hook_request : Dict.t :=
  [ ("action", PyStr "execute_hook");
    ("hook_type", PyStr "TotallyUnknownHook") ].

Definition pre_command_text : string :=
  object_text [ ("action", quoted "execute_hook");
                ("hook_type", quoted "PreCommand");
                ("context", object_text [ ("command", quoted "get") ]) ].
Definition pre_command_request : Dict.t :=
  [ ("action", PyStr "execute_hook");
    ("hook_type", PyStr "PreCommand");
    ("context", PyDict [ ("command", PyStr "get") ]) ].

Definition bogus_text : string :=
  object_text [ ("action", quoted "bogus_action") ].
Definition bogus_request : Dict.t :=
  [ ("action", PyStr "bogus_action") ].

Definition sample_documents : list (string * value) :=
  [ (metadata_text, PyDict metadata_request);
    (no_hook_text, PyDict no_hook_request);
    (empty_hook_text, PyDict empty_hook_request);
    (unknown_hook_text, PyDict unknown_hook_request);
    (pre_command_text, PyDict pre_command_request);
    (bogus_text, PyDict bogus_request) ].

(** A runtime whose decoder knows the sample documents and rejects every
    other text, with a fixed clock reading and interpreter version. *)
Definition sample_runtime : runtime :=
  {| json_load := fun text =>
                    match assoc text sample_documents with
                    | Some v => Ok v
                    | None => Raise decode_error
                    end;
     float_repr := fun f => match f with
                            | S754_zero false => "0.0"
                            | S754_zero true => "-0.0"
                            | S754_infinity false => "inf"
                            | S754_infinity true => "-inf"
                            | S754_nan => "nan"
                            | S754_finite _ _ _ => "1762259400.25"
                            end;
     str_repr := fun s => "'" ++ s ++ "'";
     time_time := S754_finite false 7391451651506176 (-22);
     version_number := "3.11.4" |}.

(** *** Diagnostics *)

(** The lines a run has printed on [sys.stderr]. *)
Definition diagnostics (r : Z * world) : list string := stderr (snd r).

(** Every [print] of the script starts its line with the plugin's tag. *)
Definition tagged (line : string) : bool := String.prefix "[PythonPlugin] " line.

(** [m] touches neither stream. *)
Definition effect_free {A} (m : M A) : Prop := forall w, snd (m w) = w.

(** [m] leaves both streams as they were when it raises; when it returns it
    has written nothing on the output stream and has printed at most one
    line, which is tagged. *)
Definition logs_once {A} (m : M A) : Prop :=
  forall w,
    match m w with
    | (Raise _, w') => w' = w
    | (Ok _, w') =>
        stdout w' = stdout w
        /\ exists lines,
            stderr w' = (stderr w ++ lines)%list
            /\ (length lines <= 1)%nat
            /\ forallb tagged lines = true
    end.

(** The object a [context] field must hold for a handler to run: the
    field's value, or the empty mapping when the field is left out. *)
Definition request_context (request : Dict.t) : value :=
  match Dict.lookup "context" request with
  | Some c => c
  | None => PyDict []
  end.

(** The value [context.get("command", "unknown")] reads from a context. *)
Definition context_command (context : Dict.t) : value :=
  match Dict.lookup "command" context with
  | Some c => c
  | None => PyStr "unknown"
  end.

Definition is_dict (v : value) : bool :=
  match v with
  | PyDict _ => true
  | _ => false
  end.

(** *** Further sample documents *)

Definition initialize_text : string :=
  object_text [ ("action", quoted "initialize");
                ("config", object_text [ ("level", quoted "debug") ]) ].
Definition initialize_request : Dict.t :=
  [ ("action", PyStr "initialize");
    ("config", PyDict [ ("level", PyStr "debug") ]) ].

Definition shutdown_text : string :=
  object_text [ ("action", quoted "shutdown") ].
Definition shutdown_request : Dict.t :=
  [ ("action", PyStr "shutdown") ].

(** A valid JSON document that is not an object. *)
Definition array_text : string := "[]".

Definition null_context_text : string :=
  object_text [ ("action", quoted "execute_hook");
                ("hook_type", quoted "PreRun");
                ("context", "null") ].
Definition null_context_request : Dict.t :=
  [ ("action", PyStr "execute_hook");
    ("hook_type", PyStr "PreRun");
    ("context", PyNone) ].

Definition list_hook_text : string :=
  object_text [ ("action", quoted "execute_hook");
                ("hook_type", "[" ++ quoted "PreRun" ++ "]") ].
Definition list_hook_request : Dict.t :=
  [ ("action", PyStr "execute_hook");
    ("hook_type", PyList [ PyStr "PreRun" ]) ].

Definition true_hook_text : string :=
  object_text [ ("action", quoted "execute_hook"); ("hook_type", "true") ].
Definition true_hook_request : Dict.t :=
  [ ("action", PyStr "execute_hook"); ("hook_type", PyBool true) ].

Definition post_run_text : string :=
  object_text [ ("action", quoted "execute_hook");
                ("hook_type", quoted "PostRun");
                ("context", object_text [ ("command", quoted "run") ]) ].
Definition post_run_request : Dict.t :=
  [ ("action", PyStr "execute_hook");
    ("hook_type", PyStr "PostRun");
    ("context", PyDict [ ("command", PyStr "run") ]) ].

Definition bare_pre_command_text : string :=
  object_text [ ("action", quoted "execute_hook");
                ("hook_type", quoted "PreCommand") ].
Definition bare_pre_command_request : Dict.t :=
  [ ("action", PyStr "execute_hook"); ("hook_type", PyStr "PreCommand") ].

Definition further_documents : list (string * value) :=
  [ (initialize_text, PyDict initialize_request);
    (shutdown_text, PyDict shutdown_request);
    (array_text, PyList []);
    (null_context_text, PyDict null_context_request);
    (list_hook_text, PyDict list_hook_request);
    (true_hook_text, PyDict true_hook_request);
    (post_run_text, PyDict post_run_request);
    (bare_pre_command_text, PyDict bare_pre_command_request) ].

(** The sample runtime with a decoder that also knows the further
    documents. *)
Definition further_runtime : runtime :=
  {| json_load := fun text =>
                    match assoc text (sample_documents ++ further_documents) with
                    | Some v => Ok v
                    | None => Raise decode_error
                    end;
     float_repr := float_repr sample_runtime;
     str_repr := str_repr sample_runtime;
     time_time := time_time sample_runtime;
     version_number := version_number sample_runtime |}.

(* ===================================================================== *)
(** ** Reasoning rules for quiet computations *)
(* ===================================================================== *)

Lemma quiet_ret {A} (P : A -> Prop) (a : A) : P a -> quiet P (ret a).
Proof. intros H w. simpl. auto. Qed.

Lemma quiet_lift {A} (P : A -> Prop) (o : outcome A) :
  (forall a, o = Ok a -> P a) -> quiet P (lift o).
Proof. intros H w. unfold lift. destruct o; auto. Qed.

Lemma quiet_print (P : unit -> Prop) (line : string) :
  P tt -> quiet P (print_stderr line).
Proof. intros H w. simpl. auto. Qed.

Lemma quiet_bind {A B} (P : A -> Prop) (Q : B -> Prop) (m : M A) (k : A -> M B) :
  quiet P m -> (forall a, P a -> quiet Q (k a)) -> quiet Q (bind m k).
Proof.
  intros Hm Hk w. unfold bind.
  specialize (Hm w). destruct (m w) as [[a | e] w1].
  - destruct Hm as [Hout Ha]. specialize (Hk a Ha w1).
    destruct (k a w1) as [[b | e] w2].
    + destruct Hk as [Hout' Hb]. split; [congruence | exact Hb].
    + congruence.
  - exact Hm.
Qed.

Ltac quiet_step :=
  lazymatch goal with
  | |- quiet _ (bind (lift _) _) =>
      apply quiet_bind with (P := fun _ => True);
      [ apply quiet_lift; trivial | intros ? _ ]
  | |- quiet _ (bind (print_stderr _) _) =>
      apply quiet_bind with (P := fun _ => True);
      [ apply quiet_print; trivial | intros ? _ ]
  | |- quiet _ (ret _) => apply quiet_ret
  end.

Lemma eq_str_true (v : value) (s : string) : eq_str v s = true <-> v = PyStr s.
Proof.
  destruct v; simpl; try (split; [discriminate | discriminate]).
  split.
  - intros H. apply String.eqb_eq in H. congruence.
  - intros H. inversion H. apply String.eqb_refl.
Qed.

Lemma eq_str_false (v : value) (s : string) : v <> PyStr s -> eq_str v s = false.
Proof.
  intros H. destruct (eq_str v s) eqn:E; [| reflexivity].
  apply eq_str_true in E. contradiction.
Qed.

(** The falsy objects among those [json.load] can produce. *)
Lemma truthy_false_iff (v : value) :
  truthy v = false
  <-> v = PyNone \/ v = PyBool false \/ v = PyInt 0
      \/ (exists s, v = PyFloat (S754_zero s))
      \/ v = PyStr "" \/ v = PyList [] \/ v = PyDict [].
Proof.
  split.
  - destruct v as [| b | n | f | s | l | d]; simpl; intros H.
    + auto.
    + subst b. auto.
    + apply Bool.negb_false_iff, Z.eqb_eq in H. subst n. auto.
    + destruct f; try discriminate. right; right; right; left. eauto.
    + apply Bool.negb_false_iff, String.eqb_eq in H. subst s. auto 6.
    + destruct l; [auto 7 | discriminate].
    + destruct d; [auto 8 | discriminate].
  - intros [-> | [-> | [-> | [[s ->] | [-> | [-> | ->]]]]]]; reflexivity.
Qed.

Lemma assoc_not_in {A} (k : string) (l : list (string * A)) :
  ~ In k (map fst l) -> assoc k l = None.
Proof.
  induction l as [| [k' a] l IH]; simpl; intros H; [reflexivity |].
  destruct (String.eqb_spec k' k) as [-> | Hne].
  - exfalso. apply H. now left.
  - apply IH. intros Hin. apply H. now right.
Qed.

(* ===================================================================== *)
(** ** The hook registry *)
(* ===================================================================== *)

Section Registry.

Variable rt : runtime.

Lemma handle_pre_command_quiet (context : value) :
  quiet is_hook_result (handle_pre_command rt context).
Proof.
  unfold handle_pre_command. repeat quiet_step.
  constructor. right. eauto.
Qed.

Lemma handle_post_command_quiet (context : value) :
  quiet is_hook_result (handle_post_command rt context).
Proof.
  unfold handle_post_command. repeat quiet_step.
  constructor. right. eauto.
Qed.

Lemma handle_pre_run_quiet (context : value) :
  quiet is_hook_result (handle_pre_run rt context).
Proof.
  unfold handle_pre_run. repeat quiet_step.
  constructor. right. eauto.
Qed.

Lemma handle_post_run_quiet (context : value) :
  quiet is_hook_result (handle_post_run rt context).
Proof.
  unfold handle_post_run. repeat quiet_step.
  constructor. right. eauto.
Qed.

(** Whatever [handlers.get] finds is one of the four handlers. *)
Lemma assoc_handlers_quiet (s : string) (h : value -> M value) (context : value) :
  assoc s (handlers rt) = Some h -> quiet is_hook_result (h context).
Proof.
  unfold handlers. cbn [assoc].
  repeat (destruct (String.eqb _ s);
          [ intros H; injection H as <-;
            auto using handle_pre_command_quiet, handle_post_command_quiet,
              handle_pre_run_quiet, handle_post_run_quiet
          | ]).
  discriminate.
Qed.

Lemma execute_hook_quiet (hook_type context : value) :
  quiet is_hook_result (execute_hook rt hook_type context).
Proof.
  unfold execute_hook.
  apply quiet_bind with (P := fun o => handlers_get rt hook_type = Ok o).
  - apply quiet_lift. auto.
  - intros [h |] Hget.
    + destruct hook_type; unfold handlers_get in Hget; try discriminate.
      injection Hget as Hget. apply (assoc_handlers_quiet s h context Hget).
    + apply quiet_ret. constructor. now left.
Qed.

(** A registered handler applied to a mapping returns a result. *)
Lemma registered_handler_returns (s : string) (c : Dict.t) (w : world) :
  In s (map fst (handlers rt)) ->
  exists result w',
    execute_hook rt (PyStr s) (PyDict c) w = (Ok result, w')
    /\ field "continue_execution" result = Some (PyBool true).
Proof.
  simpl. intros [<- | [<- | [<- | [<- | []]]]];
    (eexists; eexists; split; [reflexivity | reflexivity]).
Qed.

Lemma dispatch_quiet (request : value) :
  quiet response_shape (dispatch rt request).
Proof.
  unfold dispatch. quiet_step.
  destruct (eq_str a "metadata").
  { apply quiet_ret. apply ShapeMetadata. }
  destruct (eq_str a "execute_hook").
  { do 2 quiet_step.
    destruct (negb (truthy a0)).
    - apply quiet_ret. apply ShapeError.
    - apply quiet_bind with (P := is_hook_result).
      + apply execute_hook_quiet.
      + intros result Hres. apply quiet_ret. apply ShapeResult. exact Hres. }
  destruct (eq_str a "initialize").
  { do 2 quiet_step. apply quiet_ret. apply ShapeAck. }
  destruct (eq_str a "shutdown").
  { quiet_step. apply quiet_ret. apply ShapeAck. }
  apply quiet_ret. apply ShapeError.
Qed.

(** With [action = "execute_hook"] the response is the missing-hook error or
    wraps a hook result. *)
Lemma dispatch_execute_hook_quiet (request : Dict.t) :
  Dict.lookup "action" request = Some (PyStr "execute_hook") ->
  quiet (fun response =>
           response = failure_response "Missing hook_type"
           \/ exists result,
               is_hook_result result
               /\ response = success_response [ ("result", result) ])
        (dispatch rt (PyDict request)).
Proof.
  intros Haction. unfold dispatch.
  apply quiet_bind with (P := fun a => a = PyStr "execute_hook").
  { apply quiet_lift. unfold get. rewrite Haction. congruence. }
  intros a ->. cbn [eq_str String.eqb Ascii.eqb Bool.eqb andb].
  do 2 quiet_step.
  destruct (negb (truthy a)).
  - apply quiet_ret. now left.
  - apply quiet_bind with (P := is_hook_result).
    + apply execute_hook_quiet.
    + intros result Hres. apply quiet_ret. right. eauto.
Qed.

(** The two ways the [try] block ends: a raise before anything is written,
    or exactly one response on the output stream. *)
Lemma main_try_cases (stdin : string) (w : world) :
  (exists e w', main_try rt stdin w = (Raise e, w') /\ stdout w' = stdout w)
  \/ (exists response w',
         main_try rt stdin w = (Ok tt, w')
         /\ stdout w' = (stdout w ++ [response])%list
         /\ response_shape response).
Proof.
  unfold main_try, bind, lift.
  destruct (json_load rt stdin) as [request | e].
  - pose proof (dispatch_quiet request w) as H.
    destruct (dispatch rt request w) as [[response | e] w1].
    + destruct H as [Hout Hshape]. right. exists response. eexists.
      split; [reflexivity |]. simpl. rewrite Hout. auto.
    + left. eauto.
  - left. eauto.
Qed.

Lemma response_shape_invariant (doc : value) :
  response_shape doc -> response_invariant doc = true.
Proof.
  intros H. destruct H as [| result Hres | | message]; try reflexivity.
Qed.

End Registry.

(* ===================================================================== *)
(** ** Protocol properties *)
(* ===================================================================== *)

Section Protocol.

Variable rt : runtime.

Ltac run_request Hload :=
  unfold run, main, main_try, bind, lift; rewrite Hload;
  unfold dispatch, bind, lift, get.

(** C1. For every request whose [action] is ["metadata"], whatever its other
    fields hold, the process writes the single response
    [{success: true, metadata: <descriptor>}] and exits with status 0; the
    descriptor is the fixed value of [get_metadata], with id
    ["python-example"], version ["1.0.0"] and the four hooks. *)
Theorem metadata_action_returns_descriptor (stdin : string) (request : Dict.t) :
  json_load rt stdin = Ok (PyDict request) ->
  Dict.lookup "action" request = Some (PyStr "metadata") ->
  run rt stdin
  = (0%Z, {| stdout := [ PyDict [ ("success", PyBool true);
                                  ("metadata", get_metadata) ] ];
             stderr := [] |})
  /\ field "id" get_metadata = Some (PyStr "python-example")
  /\ field "version" get_metadata = Some (PyStr "1.0.0")
  /\ field "hooks" get_metadata
     = Some (PyList [ PyStr "PreCommand"; PyStr "PostCommand";
                      PyStr "PreRun"; PyStr "PostRun" ]).
Proof.
  intros Hload Haction. split; [| repeat split].
  run_request Hload. rewrite Haction. reflexivity.
Qed.

(** C2. Every run, whatever the input stream holds, writes exactly one
    response, and that response satisfies the invariant: [success] is false
    if and only if [error] is present, and [metadata] and [result] are not
    both present.  This covers the response written by the exception
    handler. *)
Theorem every_response_satisfies_invariant (stdin : string) :
  exists doc,
    output (run rt stdin) = [doc] /\ response_invariant doc = true.
Proof.
  unfold output, run, main.
  destruct (main_try_cases rt stdin initial_world)
    as [(e & w' & Hrun & Hout) | (response & w' & Hrun & Hout & Hshape)];
    rewrite Hrun.
  - exists (failure_response (exn_message e)).
    unfold main_except, json_dump. cbn [snd stdout]. rewrite Hout.
    split; reflexivity.
  - exists response. cbn [snd]. rewrite Hout. split; [reflexivity |].
    apply response_shape_invariant. exact Hshape.
Qed.

(** C3. For every request whose [action] is ["execute_hook"] and which has
    no [hook_type] field, the process writes the single response
    [{success: false, error: "Missing hook_type"}] and exits with status 0. *)
Theorem missing_hook_type_is_logical_error (stdin : string) (request : Dict.t) :
  json_load rt stdin = Ok (PyDict request) ->
  Dict.lookup "action" request = Some (PyStr "execute_hook") ->
  Dict.lookup "hook_type" request = None ->
  run rt stdin
  = (0%Z, {| stdout := [ PyDict [ ("success", PyBool false);
                                  ("error", PyStr "Missing hook_type") ] ];
             stderr := [] |}).
Proof.
  intros Hload Haction Hhook.
  run_request Hload. rewrite Haction, Hhook. reflexivity.
Qed.

(** C9. For every request whose [action] is ["execute_hook"] and whose
    [hook_type] is present but falsy (the empty string, [null], [false], a
    zero, an empty array or object), the process answers as for an absent
    [hook_type]: the single response
    [{success: false, error: "Missing hook_type"}], exit status 0, and the
    registry is not consulted. *)
Theorem falsy_hook_type_is_missing (stdin : string) (request : Dict.t) (hook_type : value) :
  json_load rt stdin = Ok (PyDict request) ->
  Dict.lookup "action" request = Some (PyStr "execute_hook") ->
  Dict.lookup "hook_type" request = Some hook_type ->
  truthy hook_type = false ->
  run rt stdin
  = (0%Z, {| stdout := [ PyDict [ ("success", PyBool false);
                                  ("error", PyStr "Missing hook_type") ] ];
             stderr := [] |})
  /\ output (run rt stdin)
     <> [ PyDict [ ("success", PyBool true); ("result", default_result) ] ].
Proof.
  intros Hload Haction Hhook Hfalsy.
  assert (run rt stdin
          = (0%Z, {| stdout := [ failure_response "Missing hook_type" ];
                     stderr := [] |})) as Hrun.
  { run_request Hload. rewrite Haction, Hhook.
    cbn [eq_str String.eqb Ascii.eqb Bool.eqb].
    rewrite Hfalsy. reflexivity. }
  split; [exact Hrun |].
  unfold output. rewrite Hrun. discriminate.
Qed.

(** C4 (amended). For every request whose [action] is ["execute_hook"] and
    whose [hook_type] is a non-empty string that is not a key of the handler
    table, whatever [context] holds, the process writes the single response
    [{success: true, result: R}] where [R] is the neutral default
    [{modified_env: {}, plugin_data: {}, continue_execution: true,
    message: null}], prints nothing, and exits with status 0. *)
Theorem unknown_hook_gets_default_result (stdin : string) (request : Dict.t) (hook_type : string) :
  json_load rt stdin = Ok (PyDict request) ->
  Dict.lookup "action" request = Some (PyStr "execute_hook") ->
  Dict.lookup "hook_type" request = Some (PyStr hook_type) ->
  hook_type <> "" ->
  ~ In hook_type [ "PreCommand"; "PostCommand"; "PreRun"; "PostRun" ] ->
  run rt stdin
  = (0%Z, {| stdout :=
               [ PyDict
                   [ ("success", PyBool true);
                     ("result",
                       PyDict [ ("modified_env", PyDict []);
                                ("plugin_data", PyDict []);
                                ("continue_execution", PyBool true);
                                ("message", PyNone) ]) ] ];
             stderr := [] |}).
Proof.
  intros Hload Haction Hhook Hnonempty Hunknown.
  run_request Hload. rewrite Haction, Hhook.
  cbn [eq_str String.eqb Ascii.eqb Bool.eqb andb truthy].
  destruct (String.eqb_spec hook_type "") as [-> | _]; [contradiction |].
  cbn [negb]. unfold execute_hook, bind, lift, handlers_get.
  rewrite (assoc_not_in hook_type (handlers rt) Hunknown). reflexivity.
Qed.

(** C5. For every request whose [action] is ["execute_hook"], whose
    [hook_type] is one of ["PreCommand"], ["PostCommand"], ["PreRun"],
    ["PostRun"], and whose [context] is a mapping (or is left out, which
    defaults to the empty mapping), the process exits with status 0 and
    writes the single response [{success: true, result: R}] with
    [R.continue_execution = true]. *)
Theorem known_hook_succeeds_and_continues (stdin : string) (request : Dict.t) (hook_type : string) :
  json_load rt stdin = Ok (PyDict request) ->
  Dict.lookup "action" request = Some (PyStr "execute_hook") ->
  Dict.lookup "hook_type" request = Some (PyStr hook_type) ->
  In hook_type [ "PreCommand"; "PostCommand"; "PreRun"; "PostRun" ] ->
  (Dict.lookup "context" request = None
   \/ exists c, Dict.lookup "context" request = Some (PyDict c)) ->
  exists result,
    exit_status (run rt stdin) = 0%Z
    /\ output (run rt stdin)
       = [ PyDict [ ("success", PyBool true); ("result", result) ] ]
    /\ field "continue_execution" result = Some (PyBool true).
Proof.
  intros Hload Haction Hhook Hknown Hcontext.
  assert (exists c, match Dict.lookup "context" request with
                    | Some v => v
                    | None => PyDict []
                    end = PyDict c) as [c Hc].
  { destruct Hcontext as [-> | [c ->]]; eauto. }
  unfold exit_status, output.
  run_request Hload. rewrite Haction, Hhook, Hc.
  simpl in Hknown.
  destruct Hknown as [<- | [<- | [<- | [<- | []]]]];
    (eexists; repeat split; reflexivity).
Qed.

(** C6. For every request object whose [action] is missing or is a value
    other than ["metadata"], ["execute_hook"], ["initialize"] and
    ["shutdown"], the process writes the single response
    [{success: false, error: "Unknown action: " + str(action)}] and exits
    with status 0; for a string action the text after the prefix is the
    string itself, and a missing action is rendered as [None].  Moreover no
    action value makes a run fail by itself: a run on a request object exits
    with a non-zero status only if its action is ["execute_hook"]. *)
Theorem unknown_action_is_logical_error (stdin : string) (request : Dict.t) :
  json_load rt stdin = Ok (PyDict request) ->
  ((forall s, In s [ "metadata"; "execute_hook"; "initialize"; "shutdown" ] ->
              request_action request <> PyStr s) ->
   run rt stdin
   = (0%Z, {| stdout :=
                [ PyDict
                    [ ("success", PyBool false);
                      ("error",
                        PyStr ("Unknown action: "
                                 ++ py_str rt (request_action request))) ] ];
              stderr := [] |})
   /\ (forall s, request_action request = PyStr s ->
                 py_str rt (request_action request) = s)
   /\ (Dict.lookup "action" request = None ->
       py_str rt (request_action request) = "None"))
  /\ (exit_status (run rt stdin) <> 0%Z ->
      request_action request = PyStr "execute_hook").
Proof.
  intros Hload. split.
  - intros Hunknown. split; [| split].
    + run_request Hload. fold (request_action request).
      rewrite !eq_str_false by (apply Hunknown; simpl; auto).
      reflexivity.
    + intros s ->. reflexivity.
    + unfold request_action. intros ->. reflexivity.
  - unfold exit_status. run_request Hload. fold (request_action request).
    destruct (eq_str (request_action request) "metadata");
      [intros H; now contradiction H |].
    destruct (eq_str (request_action request) "execute_hook") eqn:Hexec;
      [intros _; now apply eq_str_true |].
    destruct (eq_str (request_action request) "initialize");
      [intros H; now contradiction H |].
    destruct (eq_str (request_action request) "shutdown");
      intros H; now contradiction H.
Qed.

(** C7. Whenever decoding the input stream raises (the content is not a
    valid JSON document), and more generally whenever anything in the
    [try] block raises, the process writes the single document
    [{success: false, error: str(e)}] and exits with status 1; the exit
    status of a run is 0 or 1, and it is 1 only when the [try] block
    raised. *)
Theorem failure_is_reported_and_exits_nonzero (stdin : string) :
  (forall e, json_load rt stdin = Raise e ->
     run rt stdin
     = (1%Z, {| stdout := [ PyDict [ ("success", PyBool false);
                                     ("error", PyStr (exn_message e)) ] ];
                stderr := [] |}))
  /\ (forall e w', main_try rt stdin initial_world = (Raise e, w') ->
        exit_status (run rt stdin) = 1%Z
        /\ output (run rt stdin)
           = [ PyDict [ ("success", PyBool false);
                        ("error", PyStr (exn_message e)) ] ])
  /\ (exit_status (run rt stdin) <> 0%Z ->
      exit_status (run rt stdin) = 1%Z
      /\ exists e w', main_try rt stdin initial_world = (Raise e, w')).
Proof.
  split; [| split].
  - intros e Hload. run_request Hload. reflexivity.
  - intros e w' Hraise.
    destruct (main_try_cases rt stdin initial_world)
      as [(e1 & w1 & Hrun & Hout) | (response & w1 & Hrun & _)];
      [| congruence].
    assert (e1 = e /\ w1 = w') as [-> ->]
      by (rewrite Hrun in Hraise; split; congruence).
    unfold exit_status, output, run, main. rewrite Hrun.
    unfold main_except, json_dump. cbn [fst snd stdout]. rewrite Hout.
    split; reflexivity.
  - unfold exit_status, run, main.
    destruct (main_try rt stdin initial_world) as [[[] | e] w'] eqn:Hrun.
    + intros H. now contradiction H.
    + intros _. split; [reflexivity | eauto].
Qed.

(** C8. For every request whose [action] is ["execute_hook"], if the
    response the run writes has [success = true], then its [result] is an
    object with exactly the four keys [modified_env], [plugin_data],
    [continue_execution], [message], and [modified_env] and [plugin_data]
    are objects (possibly empty), never absent. *)
Theorem hook_result_is_fully_populated (stdin : string) (request : Dict.t) (doc : value) :
  json_load rt stdin = Ok (PyDict request) ->
  Dict.lookup "action" request = Some (PyStr "execute_hook") ->
  output (run rt stdin) = [doc] ->
  field "success" doc = Some (PyBool true) ->
  exists result,
    field "result" doc = Some (PyDict result)
    /\ Dict.keys result = hook_result_keys
    /\ (exists env, Dict.lookup "modified_env" result = Some (PyDict env))
    /\ (exists data, Dict.lookup "plugin_data" result = Some (PyDict data))
    /\ (exists b, Dict.lookup "continue_execution" result = Some (PyBool b))
    /\ (exists m, Dict.lookup "message" result = Some m).
Proof.
  intros Hload Haction Hout Hsuccess.
  unfold output, run, main, main_try, bind, lift in Hout.
  rewrite Hload in Hout.
  pose proof (dispatch_execute_hook_quiet rt request Haction initial_world) as H.
  destruct (dispatch rt (PyDict request) initial_world) as [[response | e] w1].
  - destruct H as [Hw1 Hresp]. unfold json_dump in Hout.
    cbn [snd stdout] in Hout. rewrite Hw1 in Hout.
    injection Hout as <-.
    destruct Hresp as [-> | (result & Hres & ->)]; [discriminate |].
    destruct Hres as [env data message _].
    eexists. split; [reflexivity |].
    repeat split; try reflexivity; eexists; reflexivity.
  - unfold main_except, json_dump in Hout.
    cbn [snd stdout] in Hout. rewrite H in Hout.
    injection Hout as <-. discriminate.
Qed.

(** C10. The hook identifiers advertised in the [hooks] field of the
    descriptor are exactly the keys of the handler table of [execute_hook]:
    the two lists are equal, and an identifier is advertised if and only if
    [handlers.get] finds a handler for it. *)
Theorem advertised_hooks_are_the_registered_ones :
  advertised_hooks = map PyStr (map fst (handlers rt))
  /\ forall s, In (PyStr s) advertised_hooks
               <-> exists h, handlers_get rt (PyStr s) = Ok (Some h).
Proof.
  split; [reflexivity |].
  intros s. unfold handlers_get, handlers. cbn [assoc advertised_hooks]. split.
  - cbn. intros [H | [H | [H | [H | []]]]]; injection H as <-; cbn; eauto.
  - change advertised_hooks
      with [ PyStr "PreCommand"; PyStr "PostCommand";
             PyStr "PreRun"; PyStr "PostRun" ].
    destruct (String.eqb_spec "PreCommand" s) as [<- | _]; [cbn; auto |].
    destruct (String.eqb_spec "PostCommand" s) as [<- | _]; [cbn; auto |].
    destruct (String.eqb_spec "PreRun" s) as [<- | _]; [cbn; auto |].
    destruct (String.eqb_spec "PostRun" s) as [<- | _]; [cbn; auto 6 |].
    intros [h H]. discriminate.
Qed.

End Protocol.

(* ===================================================================== *)
(** ** The properties on the sample documents *)
(* ===================================================================== *)

(** A metadata request that also carries a numeric [hook_type] and an array as [context]. *)
Lemma metadata_action_returns_descriptor_witness :
  json_load sample_runtime metadata_text = Ok (PyDict metadata_request)
  /\ Dict.lookup "action" metadata_request = Some (PyStr "metadata")
  /\ run sample_runtime metadata_text
     = (0%Z, {| stdout := [ PyDict [ ("success", PyBool true);
                                     ("metadata", get_metadata) ] ];
                stderr := [] |}).
Proof.
  split; [reflexivity | split; [reflexivity |]].
  apply (metadata_action_returns_descriptor
           sample_runtime metadata_text metadata_request);
    reflexivity.
Defined.

(** An [execute_hook] request without [hook_type]. *)
Lemma missing_hook_type_is_logical_error_witness :
  json_load sample_runtime no_hook_text = Ok (PyDict no_hook_request)
  /\ Dict.lookup "hook_type" no_hook_request = None
  /\ run sample_runtime no_hook_text
     = (0%Z, {| stdout := [ PyDict [ ("success", PyBool false);
                                     ("error", PyStr "Missing hook_type") ] ];
                stderr := [] |}).
Proof.
  split; [reflexivity | split; [reflexivity |]].
  apply (missing_hook_type_is_logical_error
           sample_runtime no_hook_text no_hook_request);
    reflexivity.
Defined.

(** An [execute_hook] request whose [hook_type] is the empty string. *)
Lemma falsy_hook_type_is_missing_witness :
  Dict.lookup "hook_type" empty_hook_request = Some (PyStr "")
  /\ truthy (PyStr "") = false
  /\ run sample_runtime empty_hook_text
     = (0%Z, {| stdout := [ PyDict [ ("success", PyBool false);
                                     ("error", PyStr "Missing hook_type") ] ];
                stderr := [] |}).
Proof.
  split; [reflexivity | split; [reflexivity |]].
  apply (falsy_hook_type_is_missing
           sample_runtime empty_hook_text empty_hook_request (PyStr ""));
    reflexivity.
Defined.

(** An [execute_hook] request for a hook the plugin does not know. *)
Lemma unknown_hook_gets_default_result_witness :
  Dict.lookup "hook_type" unknown_hook_request = Some (PyStr "TotallyUnknownHook")
  /\ run sample_runtime unknown_hook_text
     = (0%Z, {| stdout :=
                  [ PyDict
                      [ ("success", PyBool true);
                        ("result",
                          PyDict [ ("modified_env", PyDict []);
                                   ("plugin_data", PyDict []);
                                   ("continue_execution", PyBool true);
                                   ("message", PyNone) ]) ] ];
                stderr := [] |}).
Proof.
  split; [reflexivity |].
  apply (unknown_hook_gets_default_result
           sample_runtime unknown_hook_text unknown_hook_request
           "TotallyUnknownHook");
    try reflexivity.
  - discriminate.
  - simpl. intros [H | [H | [H | [H | []]]]]; discriminate.
Defined.

(** The empty string is a [hook_type] string outside the handler table, and
    the response to it is the missing-hook error, not the default result. *)
Lemma empty_hook_type_is_not_defaulted :
  json_load sample_runtime empty_hook_text = Ok (PyDict empty_hook_request)
  /\ Dict.lookup "action" empty_hook_request = Some (PyStr "execute_hook")
  /\ Dict.lookup "hook_type" empty_hook_request = Some (PyStr "")
  /\ ~ In "" [ "PreCommand"; "PostCommand"; "PreRun"; "PostRun" ]
  /\ output (run sample_runtime empty_hook_text)
     = [ PyDict [ ("success", PyBool false);
                  ("error", PyStr "Missing hook_type") ] ]
  /\ output (run sample_runtime empty_hook_text)
     <> [ PyDict [ ("success", PyBool true); ("result", default_result) ] ].
Proof.
  repeat split; try reflexivity.
  - simpl. intros [H | [H | [H | [H | []]]]]; discriminate.
  - vm_compute. discriminate.
Qed.

(** A [PreCommand] hook on the context of a [get] command. *)
Lemma known_hook_succeeds_and_continues_witness :
  Dict.lookup "hook_type" pre_command_request = Some (PyStr "PreCommand")
  /\ Dict.lookup "context" pre_command_request
     = Some (PyDict [ ("command", PyStr "get") ])
  /\ exists result,
       exit_status (run sample_runtime pre_command_text) = 0%Z
       /\ output (run sample_runtime pre_command_text)
          = [ PyDict [ ("success", PyBool true); ("result", result) ] ]
       /\ field "continue_execution" result = Some (PyBool true).
Proof.
  split; [reflexivity | split; [reflexivity |]].
  apply (known_hook_succeeds_and_continues
           sample_runtime pre_command_text pre_command_request "PreCommand");
    try reflexivity.
  - simpl. auto.
  - right. eexists. reflexivity.
Defined.

(** A request whose action is not part of the protocol. *)
Lemma unknown_action_is_logical_error_witness :
  request_action bogus_request = PyStr "bogus_action"
  /\ run sample_runtime bogus_text
     = (0%Z, {| stdout :=
                  [ PyDict [ ("success", PyBool false);
                             ("error", PyStr "Unknown action: bogus_action") ] ];
                stderr := [] |}).
Proof.
  split; [reflexivity |].
  apply (proj1 (unknown_action_is_logical_error
                  sample_runtime bogus_text bogus_request eq_refl)).
  simpl. intros s [<- | [<- | [<- | [<- | []]]]]; discriminate.
Defined.

(** An input stream that does not hold a JSON document. *)
Lemma failure_is_reported_and_exits_nonzero_witness :
  json_load sample_runtime "not json" = Raise decode_error
  /\ run sample_runtime "not json"
     = (1%Z, {| stdout :=
                  [ PyDict
                      [ ("success", PyBool false);
                        ("error",
                          PyStr "Expecting value: line 1 column 1 (char 0)") ] ];
                stderr := [] |}).
Proof.
  split; [reflexivity |].
  apply (proj1 (failure_is_reported_and_exits_nonzero sample_runtime "not json")
           decode_error).
  reflexivity.
Defined.

(** The result returned for an unknown hook has all four fields. *)
Lemma hook_result_is_fully_populated_witness :
  output (run sample_runtime unknown_hook_text)
  = [ PyDict [ ("success", PyBool true); ("result", default_result) ] ]
  /\ exists result,
       field "result"
         (PyDict [ ("success", PyBool true); ("result", default_result) ])
       = Some (PyDict result)
       /\ Dict.keys result = hook_result_keys
       /\ (exists env, Dict.lookup "modified_env" result = Some (PyDict env))
       /\ (exists data, Dict.lookup "plugin_data" result = Some (PyDict data))
       /\ (exists b, Dict.lookup "continue_execution" result = Some (PyBool b))
       /\ (exists m, Dict.lookup "message" result = Some m).
Proof.
  split; [reflexivity |].
  apply (hook_result_is_fully_populated
           sample_runtime unknown_hook_text unknown_hook_request);
    reflexivity.
Defined.


(* ===================================================================== *)
(** ** Diagnostics discipline *)
(* ===================================================================== *)

Lemma logs_once_ret {A} (a : A) : logs_once (ret a).
Proof.
  intros w. simpl. split; [reflexivity |].
  exists []. rewrite app_nil_r. auto.
Qed.

Lemma logs_once_lift_bind {A B} (o : outcome A) (k : A -> M B) :
  (forall a, o = Ok a -> logs_once (k a)) -> logs_once (bind (lift o) k).
Proof.
  intros H w. unfold bind, lift. destruct o as [a | e].
  - apply (H a eq_refl).
  - reflexivity.
Qed.

Lemma logs_once_print_ret {A} (line : string) (a : A) :
  tagged line = true -> logs_once (bind (print_stderr line) (fun _ => ret a)).
Proof.
  intros Htag w. unfold bind, print_stderr, ret. cbn [stdout stderr].
  split; [reflexivity |].
  exists [line]. cbn [length forallb]. rewrite Htag. auto.
Qed.

Lemma logs_once_bind_ret {A B} (m : M A) (f : A -> B) :
  logs_once m -> logs_once (bind m (fun a => ret (f a))).
Proof.
  intros H w. unfold bind, ret. specialize (H w).
  destruct (m w) as [[a | e] w']; exact H.
Qed.

Section Diagnostics.

Variable rt : runtime.

Ltac logs_step :=
  lazymatch goal with
  | |- logs_once (bind (lift _) _) => apply logs_once_lift_bind; intros ? _
  | |- logs_once (bind (print_stderr _) _) =>
      apply logs_once_print_ret; reflexivity
  | |- logs_once (ret _) => apply logs_once_ret
  end.

Lemma handle_pre_command_logs (context : value) :
  logs_once (handle_pre_command rt context).
Proof. unfold handle_pre_command. repeat logs_step. Qed.

Lemma handle_post_command_logs (context : value) :
  logs_once (handle_post_command rt context).
Proof. unfold handle_post_command. repeat logs_step. Qed.

Lemma handle_pre_run_logs (context : value) :
  logs_once (handle_pre_run rt context).
Proof. unfold handle_pre_run. repeat logs_step. Qed.

Lemma handle_post_run_logs (context : value) :
  logs_once (handle_post_run rt context).
Proof. unfold handle_post_run. repeat logs_step. Qed.

Lemma assoc_handlers_logs (s : string) (h : value -> M value) (context : value) :
  assoc s (handlers rt) = Some h -> logs_once (h context).
Proof.
  unfold handlers. cbn [assoc].
  repeat (destruct (String.eqb _ s);
          [ intros H; injection H as <-;
            auto using handle_pre_command_logs, handle_post_command_logs,
              handle_pre_run_logs, handle_post_run_logs
          | ]).
  discriminate.
Qed.

Lemma execute_hook_logs (hook_type context : value) :
  logs_once (execute_hook rt hook_type context).
Proof.
  unfold execute_hook. apply logs_once_lift_bind.
  intros [h |] Hget; [| apply logs_once_ret].
  destruct hook_type; unfold handlers_get in Hget; try discriminate.
  injection Hget as Hget. apply (assoc_handlers_logs s h context Hget).
Qed.

Lemma dispatch_logs (request : value) : logs_once (dispatch rt request).
Proof.
  unfold dispatch. logs_step.
  destruct (eq_str a "metadata"); [apply logs_once_ret |].
  destruct (eq_str a "execute_hook").
  { do 2 logs_step.
    destruct (negb (truthy a0)); [apply logs_once_ret |].
    apply (logs_once_bind_ret (execute_hook rt a0 a1)
             (fun result => PyDict [ ("success", PyBool true);
                                     ("result", result) ])).
    apply execute_hook_logs. }
  destruct (eq_str a "initialize"); [repeat logs_step |].
  destruct (eq_str a "shutdown"); [repeat logs_step |].
  apply logs_once_ret.
Qed.

(** How the [try] block leaves the streams: untouched when it raises; one
    response and at most one tagged diagnostic line when it returns. *)
Lemma main_try_streams (stdin : string) (w : world) :
  (exists e, main_try rt stdin w = (Raise e, w))
  \/ (exists response lines,
         main_try rt stdin w
         = (Ok tt, {| stdout := stdout w ++ [response];
                      stderr := stderr w ++ lines |})
         /\ (length lines <= 1)%nat
         /\ forallb tagged lines = true
         /\ response_shape response)%list.
Proof.
  unfold main_try, bind, lift.
  destruct (json_load rt stdin) as [request | e]; [| left; eauto].
  pose proof (dispatch_logs request w) as Hlogs.
  pose proof (dispatch_quiet rt request w) as Hquiet.
  destruct (dispatch rt request w) as [[response | e] w1].
  - destruct Hlogs as [Hout (lines & Herr & Hlen & Htag)].
    destruct Hquiet as [_ Hshape].
    right. exists response, lines. unfold json_dump.
    rewrite Hout, Herr. auto.
  - subst w1. left. eauto.
Qed.

End Diagnostics.

(* ===================================================================== *)
(** ** Further behaviour of the dispatcher and of the handlers *)
(* ===================================================================== *)

Section Behaviour.

Variable rt : runtime.

Ltac run_on Hload :=
  unfold run, main, main_try, bind, lift; rewrite Hload;
  unfold dispatch, bind, lift, get.


(** X2. For every request object whose [action] is ["shutdown"], whatever
    else it holds, the process acknowledges with [{success: true}], exits
    with status 0 and prints the single line ["[PythonPlugin] Shutdown"]. *)
Theorem shutdown_is_acknowledged (stdin : string) (request : Dict.t) :
  json_load rt stdin = Ok (PyDict request) ->
  Dict.lookup "action" request = Some (PyStr "shutdown") ->
  run rt stdin
  = (0%Z, {| stdout := [ PyDict [ ("success", PyBool true) ] ];
             stderr := [ "[PythonPlugin] Shutdown" ] |}).
Proof.
  intros Hload Haction. run_on Hload. rewrite Haction. reflexivity.
Qed.

(** X3. When the input stream holds a valid JSON document that is not an
    object (an array, a string, a number, a boolean or null), reading its
    [action] raises: the process writes
    [{success: false, error: "'T' object has no attribute 'get'"}] with [T]
    the Python type of the document, prints nothing and exits with
    status 1. *)
Theorem non_object_request_fails (stdin : string) (document : value) :
  json_load rt stdin = Ok document ->
  is_dict document = false ->
  run rt stdin
  = (1%Z, {| stdout :=
               [ PyDict
                   [ ("success", PyBool false);
                     ("error",
                       PyStr ("'" ++ type_name document
                                  ++ "' object has no attribute 'get'")) ] ];
             stderr := [] |}).
Proof.
  intros Hload Hkind. run_on Hload.
  destruct document; try discriminate; reflexivity.
Qed.

(** X4. A registered hook needs a mapping as context: for every request
    whose [action] is ["execute_hook"], whose [hook_type] is one of the four
    registered identifiers and whose [context] field is present but not an
    object, the handler raises before it prints or returns anything, so the
    process writes [{success: false, error: "'T' object has no attribute
    'get'"}] with [T] the Python type of the context, prints nothing and
    exits with status 1. *)
Theorem known_hook_rejects_non_mapping_context (stdin : string) (request : Dict.t) (hook_type : string) (context : value) :
  json_load rt stdin = Ok (PyDict request) ->
  Dict.lookup "action" request = Some (PyStr "execute_hook") ->
  Dict.lookup "hook_type" request = Some (PyStr hook_type) ->
  In hook_type [ "PreCommand"; "PostCommand"; "PreRun"; "PostRun" ] ->
  Dict.lookup "context" request = Some context ->
  is_dict context = false ->
  run rt stdin
  = (1%Z, {| stdout :=
               [ PyDict
                   [ ("success", PyBool false);
                     ("error",
                       PyStr ("'" ++ type_name context
                                  ++ "' object has no attribute 'get'")) ] ];
             stderr := [] |}).
Proof.
  intros Hload Haction Hhook Hknown Hcontext Hkind.
  run_on Hload. rewrite Haction, Hhook, Hcontext.
  simpl in Hknown.
  destruct Hknown as [<- | [<- | [<- | [<- | []]]]];
    destruct context; try discriminate; reflexivity.
Qed.

(** X5. For every request whose [action] is ["execute_hook"] and whose
    [hook_type] is a non-empty array or a non-empty object, the lookup in
    the handler table raises: the process writes a single
    [{success: false, error: <message>}] body, prints nothing and exits
    with status 1, whatever the context is. *)
Theorem unhashable_hook_type_fails (stdin : string) (request : Dict.t) (hook_type : value) :
  json_load rt stdin = Ok (PyDict request) ->
  Dict.lookup "action" request = Some (PyStr "execute_hook") ->
  Dict.lookup "hook_type" request = Some hook_type ->
  truthy hook_type = true ->
  (exists items, hook_type = PyList items)
  \/ (exists entries, hook_type = PyDict entries) ->
  exists message,
    run rt stdin
    = (1%Z, {| stdout := [ PyDict [ ("success", PyBool false);
                                    ("error", PyStr message) ] ];
               stderr := [] |}).
Proof.
  intros Hload Haction Hhook Htruthy Hkind.
  exists (exn_message (unhashable hook_type)).
  run_on Hload. rewrite Haction, Hhook.
  cbn [eq_str String.eqb Ascii.eqb Bool.eqb]. rewrite Htruthy.
  destruct Hkind as [[items ->] | [entries ->]]; reflexivity.
Qed.

(** X6. The handler table is keyed by strings: for every request whose
    [action] is ["execute_hook"] and whose [hook_type] is [true] or a
    non-zero number, whatever the context is, the process answers as for an
    unknown hook, with [{success: true, result: R}], [R] the neutral default
    result, prints nothing and exits with status 0. *)
Theorem non_string_hook_type_gets_default_result (stdin : string) (request : Dict.t) (hook_type : value) :
  json_load rt stdin = Ok (PyDict request) ->
  Dict.lookup "action" request = Some (PyStr "execute_hook") ->
  Dict.lookup "hook_type" request = Some hook_type ->
  truthy hook_type = true ->
  (exists b, hook_type = PyBool b)
  \/ (exists n, hook_type = PyInt n)
  \/ (exists f, hook_type = PyFloat f) ->
  run rt stdin
  = (0%Z, {| stdout :=
               [ PyDict
                   [ ("success", PyBool true);
                     ("result",
                       PyDict [ ("modified_env", PyDict []);
                                ("plugin_data", PyDict []);
                                ("continue_execution", PyBool true);
                                ("message", PyNone) ]) ] ];
             stderr := [] |}).
Proof.
  intros Hload Haction Hhook Htruthy Hkind.
  run_on Hload. rewrite Haction, Hhook.
  cbn [eq_str String.eqb Ascii.eqb Bool.eqb]. rewrite Htruthy.
  destruct Hkind as [[b ->] | [[n ->] | [f ->]]]; reflexivity.
Qed.


(** X7. The plugin never asks the host to abort: whatever the input stream
    holds, if the response the run writes carries a [result], then
    [result.continue_execution] is [true]. *)
Theorem plugin_never_aborts (stdin : string) (doc result : value) :
  output (run rt stdin) = [doc] ->
  field "result" doc = Some result ->
  field "continue_execution" result = Some (PyBool true).
Proof.
  unfold output, run, main. intros Hout Hresult.
  destruct (main_try_cases rt stdin initial_world)
    as [(e & w' & Hrun & Hw') | (response & w' & Hrun & Hw' & Hshape)];
    rewrite Hrun in Hout.
  - unfold main_except, json_dump in Hout. cbn [snd stdout] in Hout.
    rewrite Hw' in Hout. injection Hout as <-. discriminate.
  - cbn [snd] in Hout. rewrite Hw' in Hout. injection Hout as <-.
    destruct Hshape as [| r Hr | | message]; try discriminate.
    injection Hresult as <-. destruct Hr. reflexivity.
Qed.

(** X8. The [message] of a hook result tells a handled hook from an
    unhandled one: for every request whose [action] is ["execute_hook"],
    whose [hook_type] is a non-empty string and whose context is a mapping
    (or is left out), the response is [{success: true, result: R}] and
    [R.message] is [null] if and only if [hook_type] is not one of the four
    registered identifiers. *)
Theorem message_is_null_iff_hook_is_unregistered (stdin : string) (request : Dict.t) (hook_type : string) :
  json_load rt stdin = Ok (PyDict request) ->
  Dict.lookup "action" request = Some (PyStr "execute_hook") ->
  Dict.lookup "hook_type" request = Some (PyStr hook_type) ->
  hook_type <> "" ->
  is_dict (request_context request) = true ->
  exists result,
    output (run rt stdin)
    = [ PyDict [ ("success", PyBool true); ("result", result) ] ]
    /\ (field "message" result = Some PyNone
        <-> ~ In hook_type [ "PreCommand"; "PostCommand"; "PreRun"; "PostRun" ]).
Proof.
  intros Hload Haction Hhook Hnonempty Hcontext.
  unfold request_context in Hcontext.
  destruct (match Dict.lookup "context" request with
            | Some c => c
            | None => PyDict []
            end) as [| | | | | | c] eqn:Hc; try discriminate.
  unfold output. run_on Hload. rewrite Haction, Hhook, Hc.
  cbn [eq_str String.eqb Ascii.eqb Bool.eqb andb truthy].
  destruct (String.eqb_spec hook_type "") as [-> | _]; [contradiction |].
  cbn [negb]. unfold execute_hook, bind, lift, handlers_get, handlers.
  cbn [assoc].
  destruct (String.eqb_spec "PreCommand" hook_type) as [<- | H1].
  { eexists. split; [reflexivity |]. cbn. split; [discriminate | tauto]. }
  destruct (String.eqb_spec "PostCommand" hook_type) as [<- | H2].
  { eexists. split; [reflexivity |]. cbn. split; [discriminate | tauto]. }
  destruct (String.eqb_spec "PreRun" hook_type) as [<- | H3].
  { eexists. split; [reflexivity |]. cbn. split; [discriminate | tauto]. }
  destruct (String.eqb_spec "PostRun" hook_type) as [<- | H4].
  { eexists. split; [reflexivity |]. cbn. split; [discriminate | tauto]. }
  eexists. split; [reflexivity |]. cbn. split; [| reflexivity].
  intros _ [H | [H | [H | [H | []]]]]; congruence.
Qed.

(** X9. Which hooks report what: for every request whose [action] is
    ["execute_hook"], whose [hook_type] is a registered identifier and
    whose context is a mapping (or is left out), the result's
    [modified_env] is empty exactly for the two post hooks ([PostCommand],
    [PostRun]), and its [plugin_data] is empty exactly for the hooks other
    than [PostCommand]. *)
Theorem post_hooks_leave_the_environment_alone (stdin : string) (request : Dict.t) (hook_type : string) :
  json_load rt stdin = Ok (PyDict request) ->
  Dict.lookup "action" request = Some (PyStr "execute_hook") ->
  Dict.lookup "hook_type" request = Some (PyStr hook_type) ->
  In hook_type [ "PreCommand"; "PostCommand"; "PreRun"; "PostRun" ] ->
  is_dict (request_context request) = true ->
  exists env data message,
    output (run rt stdin)
    = [ PyDict
          [ ("success", PyBool true);
            ("result",
              PyDict [ ("modified_env", PyDict env);
                       ("plugin_data", PyDict data);
                       ("continue_execution", PyBool true);
                       ("message", PyStr message) ]) ] ]
    /\ (env = [] <-> hook_type = "PostCommand" \/ hook_type = "PostRun")
    /\ (data = [] <-> hook_type <> "PostCommand").
Proof.
  intros Hload Haction Hhook Hknown Hcontext.
  unfold request_context in Hcontext.
  destruct (match Dict.lookup "context" request with
            | Some c => c
            | None => PyDict []
            end) as [| | | | | | c] eqn:Hc; try discriminate.
  unfold output. run_on Hload. rewrite Haction, Hhook, Hc.
  simpl in Hknown.
  destruct Hknown as [<- | [<- | [<- | [<- | []]]]];
    (do 3 eexists; split; [reflexivity |]; split; split;
     try discriminate; try tauto; try (intros [H | H]; discriminate);
     try (intros H; now contradiction H)).
Qed.

(** X10. The [PreCommand] handler echoes the command: for every request
    whose [action] is ["execute_hook"], whose [hook_type] is ["PreCommand"]
    and whose context is the mapping [context], the result's [modified_env]
    has the keys [PYTHON_PLUGIN], [LAST_COMMAND], [COMMAND_TIME], with
    [LAST_COMMAND] the context's [command] entry as it came (of any JSON
    type), or ["unknown"] when the context has none, and the message ends
    with [str] of that same value. *)
Theorem pre_command_echoes_the_command (stdin : string) (request context : Dict.t) :
  json_load rt stdin = Ok (PyDict request) ->
  Dict.lookup "action" request = Some (PyStr "execute_hook") ->
  Dict.lookup "hook_type" request = Some (PyStr "PreCommand") ->
  request_context request = PyDict context ->
  exists env,
    output (run rt stdin)
    = [ PyDict
          [ ("success", PyBool true);
            ("result",
              PyDict [ ("modified_env", PyDict env);
                       ("plugin_data", PyDict []);
                       ("continue_execution", PyBool true);
                       ("message",
                         PyStr ("Python plugin processed pre-command: "
                                  ++ py_str rt (context_command context))) ]) ] ]
    /\ Dict.keys env = [ "PYTHON_PLUGIN"; "LAST_COMMAND"; "COMMAND_TIME" ]
    /\ Dict.lookup "PYTHON_PLUGIN" env = Some (PyStr "active")
    /\ Dict.lookup "LAST_COMMAND" env = Some (context_command context)
    /\ (Dict.lookup "command" context = None ->
        Dict.lookup "LAST_COMMAND" env = Some (PyStr "unknown")).
Proof.
  intros Hload Haction Hhook Hcontext. unfold request_context in Hcontext.
  unfold output. run_on Hload. rewrite Haction, Hhook, Hcontext.
  eexists. split; [reflexivity |].
  repeat split. unfold context_command. intros ->. reflexivity.
Qed.



(** X13. A failing run prints no diagnostics: every [print] of the script
    comes after the last operation that can raise, so when the exit status
    is not 0 the error stream is empty. *)
Theorem failing_run_prints_nothing (stdin : string) :
  exit_status (run rt stdin) <> 0%Z ->
  diagnostics (run rt stdin) = [].
Proof.
  unfold exit_status, diagnostics, run, main.
  destruct (main_try_streams rt stdin initial_world)
    as [[e Hrun] | (response & lines & Hrun & _)];
    rewrite Hrun.
  - intros _. reflexivity.
  - intros H. now contradiction H.
Qed.

(** X14. The exit status agrees with the body: whatever the input stream
    holds, a response with [success = true] is only ever written by a run
    that exits with status 0, and a run that exits with status 0 has
    written one of the four dispatcher responses (the descriptor, a hook
    result, a bare acknowledgement, or a logical error). *)
Theorem exit_status_agrees_with_body (stdin : string) :
  (forall doc, output (run rt stdin) = [doc] ->
               field "success" doc = Some (PyBool true) ->
               exit_status (run rt stdin) = 0%Z)
  /\ (exit_status (run rt stdin) = 0%Z ->
      exists doc, output (run rt stdin) = [doc] /\ response_shape doc).
Proof.
  unfold exit_status, output, run, main.
  destruct (main_try_streams rt stdin initial_world)
    as [[e Hrun] | (response & lines & Hrun & _ & _ & Hshape)];
    rewrite Hrun.
  - split.
    + intros doc Hout. unfold main_except, json_dump in Hout.
      cbn [snd stdout initial_world app] in Hout.
      injection Hout as <-. discriminate.
    + cbn. discriminate.
  - split; [reflexivity |].
    intros _. exists response. split; [reflexivity | exact Hshape].
Qed.

End Behaviour.

(* ===================================================================== *)
(** ** The further properties on sample documents *)
(* ===================================================================== *)


(** A [shutdown] request. *)
Lemma shutdown_is_acknowledged_witness :
  json_load further_runtime shutdown_text = Ok (PyDict shutdown_request)
  /\ run further_runtime shutdown_text
     = (0%Z, {| stdout := [ PyDict [ ("success", PyBool true) ] ];
                stderr := [ "[PythonPlugin] Shutdown" ] |}).
Proof.
  split; [reflexivity |].
  apply (shutdown_is_acknowledged
           further_runtime shutdown_text shutdown_request);
    reflexivity.
Defined.

(** The empty array as request. *)
Lemma non_object_request_fails_witness :
  json_load further_runtime array_text = Ok (PyList [])
  /\ run further_runtime array_text
     = (1%Z, {| stdout :=
                  [ PyDict
                      [ ("success", PyBool false);
                        ("error",
                          PyStr "'list' object has no attribute 'get'") ] ];
                stderr := [] |}).
Proof.
  split; [reflexivity |].
  apply (non_object_request_fails further_runtime array_text (PyList []));
    reflexivity.
Defined.

(** A [PreRun] hook whose context is [null]. *)
Lemma known_hook_rejects_non_mapping_context_witness :
  Dict.lookup "context" null_context_request = Some PyNone
  /\ run further_runtime null_context_text
     = (1%Z, {| stdout :=
                  [ PyDict
                      [ ("success", PyBool false);
                        ("error",
                          PyStr "'NoneType' object has no attribute 'get'") ] ];
                stderr := [] |}).
Proof.
  split; [reflexivity |].
  apply (known_hook_rejects_non_mapping_context
           further_runtime null_context_text null_context_request
           "PreRun" PyNone);
    try reflexivity.
  simpl. auto.
Defined.

(** A [hook_type] given as a one-element array. *)
Lemma unhashable_hook_type_fails_witness :
  Dict.lookup "hook_type" list_hook_request = Some (PyList [ PyStr "PreRun" ])
  /\ exists message,
       run further_runtime list_hook_text
       = (1%Z, {| stdout := [ PyDict [ ("success", PyBool false);
                                       ("error", PyStr message) ] ];
                  stderr := [] |}).
Proof.
  split; [reflexivity |].
  apply (unhashable_hook_type_fails
           further_runtime list_hook_text list_hook_request
           (PyList [ PyStr "PreRun" ]));
    try reflexivity.
  left. eexists. reflexivity.
Defined.

(** A [hook_type] given as [true]. *)
Lemma non_string_hook_type_gets_default_result_witness :
  Dict.lookup "hook_type" true_hook_request = Some (PyBool true)
  /\ run further_runtime true_hook_text
     = (0%Z, {| stdout :=
                  [ PyDict
                      [ ("success", PyBool true);
                        ("result",
                          PyDict [ ("modified_env", PyDict []);
                                   ("plugin_data", PyDict []);
                                   ("continue_execution", PyBool true);
                                   ("message", PyNone) ]) ] ];
                stderr := [] |}).
Proof.
  split; [reflexivity |].
  apply (non_string_hook_type_gets_default_result
           further_runtime true_hook_text true_hook_request (PyBool true));
    try reflexivity.
  left. eexists. reflexivity.
Defined.

(** The result of a [PostRun] hook lets the host continue. *)
Lemma plugin_never_aborts_witness :
  field "result"
    (PyDict
       [ ("success", PyBool true);
         ("result",
           PyDict [ ("modified_env", PyDict []);
                    ("plugin_data", PyDict []);
                    ("continue_execution", PyBool true);
                    ("message", PyStr "Python plugin post-run hook") ]) ])
  = Some (PyDict [ ("modified_env", PyDict []);
                   ("plugin_data", PyDict []);
                   ("continue_execution", PyBool true);
                   ("message", PyStr "Python plugin post-run hook") ])
  /\ field "continue_execution"
       (PyDict [ ("modified_env", PyDict []);
                 ("plugin_data", PyDict []);
                 ("continue_execution", PyBool true);
                 ("message", PyStr "Python plugin post-run hook") ])
     = Some (PyBool true).
Proof.
  split; [reflexivity |].
  apply (plugin_never_aborts further_runtime post_run_text
           (PyDict
              [ ("success", PyBool true);
                ("result",
                  PyDict [ ("modified_env", PyDict []);
                           ("plugin_data", PyDict []);
                           ("continue_execution", PyBool true);
                           ("message", PyStr "Python plugin post-run hook") ]) ]));
    reflexivity.
Defined.

(** An unknown hook has a null message. *)
Lemma message_is_null_iff_hook_is_unregistered_witness :
  json_load further_runtime unknown_hook_text = Ok (PyDict unknown_hook_request)
  /\ exists result,
       output (run further_runtime unknown_hook_text)
       = [ PyDict [ ("success", PyBool true); ("result", result) ] ]
       /\ (field "message" result = Some PyNone
           <-> ~ In "TotallyUnknownHook"
                    [ "PreCommand"; "PostCommand"; "PreRun"; "PostRun" ]).
Proof.
  split; [reflexivity |].
  apply (message_is_null_iff_hook_is_unregistered
           further_runtime unknown_hook_text unknown_hook_request);
    try reflexivity.
  discriminate.
Defined.

(** A [PostRun] hook reports neither environment changes nor data. *)
Lemma post_hooks_leave_the_environment_alone_witness :
  json_load further_runtime post_run_text = Ok (PyDict post_run_request)
  /\ exists env data message,
       output (run further_runtime post_run_text)
       = [ PyDict
             [ ("success", PyBool true);
               ("result",
                 PyDict [ ("modified_env", PyDict env);
                          ("plugin_data", PyDict data);
                          ("continue_execution", PyBool true);
                          ("message", PyStr message) ]) ] ]
       /\ (env = [] <-> "PostRun" = "PostCommand" \/ "PostRun" = "PostRun")
       /\ (data = [] <-> "PostRun" <> "PostCommand").
Proof.
  split; [reflexivity |].
  apply (post_hooks_leave_the_environment_alone
           further_runtime post_run_text post_run_request "PostRun");
    try reflexivity.
  simpl. auto.
Defined.

(** A [PreCommand] hook without context reports the command ["unknown"]. *)
Lemma pre_command_echoes_the_command_witness :
  request_context bare_pre_command_request = PyDict []
  /\ exists env,
       output (run further_runtime bare_pre_command_text)
       = [ PyDict
             [ ("success", PyBool true);
               ("result",
                 PyDict [ ("modified_env", PyDict env);
                          ("plugin_data", PyDict []);
                          ("continue_execution", PyBool true);
                          ("message",
                            PyStr ("Python plugin processed pre-command: "
                                     ++ py_str further_runtime
                                          (context_command []))) ]) ] ]
       /\ Dict.keys env = [ "PYTHON_PLUGIN"; "LAST_COMMAND"; "COMMAND_TIME" ]
       /\ Dict.lookup "PYTHON_PLUGIN" env = Some (PyStr "active")
       /\ Dict.lookup "LAST_COMMAND" env = Some (context_command [])
       /\ (Dict.lookup "command" [] = None ->
           Dict.lookup "LAST_COMMAND" env = Some (PyStr "unknown")).
Proof.
  split; [reflexivity |].
  apply (pre_command_echoes_the_command
           further_runtime bare_pre_command_text bare_pre_command_request []);
    reflexivity.
Defined.


(** A registered hook with a [null] context fails without a diagnostic. *)
Lemma failing_run_prints_nothing_witness :
  exit_status (run further_runtime null_context_text) <> 0%Z
  /\ diagnostics (run further_runtime null_context_text) = [].
Proof.
  split; [vm_compute; discriminate |].
  apply (failing_run_prints_nothing further_runtime null_context_text).
  vm_compute. discriminate.
Defined.

(** The metadata response comes with exit status 0. *)
Lemma exit_status_agrees_with_body_witness :
  output (run further_runtime metadata_text)
  = [ PyDict [ ("success", PyBool true); ("metadata", get_metadata) ] ]
  /\ exit_status (run further_runtime metadata_text) = 0%Z.
Proof.
  split; [reflexivity |].
  apply (proj1 (exit_status_agrees_with_body further_runtime metadata_text)
           (PyDict [ ("success", PyBool true); ("metadata", get_metadata) ]));
    reflexivity.
Defined.

(** X15. [execute_hook] itself has no notion of a missing hook: called
    with any hashable [hook_type] that is not a registered identifier (the
    empty string and [None] included) and any context, mapping or not, it
    returns the neutral default result and touches neither stream.  The
    check for a missing [hook_type] is [main]'s alone. *)
Theorem execute_hook_defaults_outside_the_table (rt : runtime) (hook_type context : value) (w : world) :
  (forall items, hook_type <> PyList items) ->
  (forall entries, hook_type <> PyDict entries) ->
  (forall s, In s [ "PreCommand"; "PostCommand"; "PreRun"; "PostRun" ] ->
             hook_type <> PyStr s) ->
  execute_hook rt hook_type context w
  = (Ok (PyDict [ ("modified_env", PyDict []);
                  ("plugin_data", PyDict []);
                  ("continue_execution", PyBool true);
                  ("message", PyNone) ]), w).
Proof.
  intros Hlist Hdict Hstr. unfold execute_hook, bind, lift, handlers_get.
  destruct hook_type as [| b | n | f | s | items | entries];
    try reflexivity.
  - rewrite (assoc_not_in s (handlers rt)); [reflexivity |].
    intros Hin. apply (Hstr s Hin). reflexivity.
  - now contradiction (Hlist items).
  - now contradiction (Hdict entries).
Qed.

(** The empty string as hook identifier, with a context that is no mapping. *)
Lemma execute_hook_defaults_outside_the_table_witness :
  execute_hook further_runtime (PyStr "") PyNone initial_world
  = (Ok (PyDict [ ("modified_env", PyDict []);
                  ("plugin_data", PyDict []);
                  ("continue_execution", PyBool true);
                  ("message", PyNone) ]), initial_world).
Proof.
  apply (execute_hook_defaults_outside_the_table
           further_runtime (PyStr "") PyNone initial_world);
    try discriminate.
  simpl. intros s [<- | [<- | [<- | [<- | []]]]]; discriminate.
Defined.
